(** * The Swiss Ephemeris JNI binding of skvk-flutter

    A shallow embedding of
    [android/app/src/main/cpp/swisseph_wrapper.cpp]: the five native
    entry points of [SwissEphemerisWrapper] and the load hook
    [JNI_OnLoad].

    The binding computes nothing itself.  Each entry point hands its
    arguments to a primitive of the Swiss Ephemeris library, tests the
    status the primitive reports and passes some elements of the arrays
    the primitive filled to [put] of a [java.util.HashMap] or to [add] of
    a [java.util.ArrayList].  The library is not part of the repository:
    it is an interface here ([SwissEph]), and what the development
    assumes of it is stated apart (section [Contract]). *)

From Stdlib Require Import ZArith List String PrimFloat.
From stdpp Require Import base strings gmap list.

Open Scope Z_scope.

(** ** JNI data *)

(** [jint] is a 32-bit integer.  The binding only compares it with zero
    and passes it on ([static_cast<int>] is the identity on it), so no
    wrap-around arises. *)
Definition jint : Type := Z.

(** [jdouble] is an IEEE 754 binary64.  The binding never does
    arithmetic on one; it moves them and returns the literal [0.0]. *)
Definition jdouble : Type := float.

Definition jboolean : Type := bool.
Definition JNI_TRUE : jboolean := true.
Definition JNI_FALSE : jboolean := false.

(** [jni.h]: [#define JNI_VERSION_1_6 0x00010006]. *)
Definition JNI_VERSION_1_6 : jint := 0x00010006.

(** A C array of doubles ([double xx[6]], [double cusps[13]],
    [double ascmc[10]]) as the function from an index to the element the
    library stored there.  The binding reads below the declared size
    only. *)
Definition darray : Type := nat -> jdouble.

(** A reference as a container holds it: [null], a [java.lang.Double]
    of some value, or any other bit pattern the JVM took for a
    reference. *)
Inductive jref : Type :=
| null_ref
| Double_ref (value : jdouble)
| stray_ref (bits : Z).

(** The places where the source passes a C double through the [...] of a
    JNI call whose Java method takes [Object]: the value of
    [HashMap.put] for a key, and the element of [ArrayList.add] at a
    position. *)
Inductive vararg_site : Type :=
| put_argument (key : string)
| add_argument (position : nat).

(** [CallObjectMethod] and [CallBooleanMethod] are variadic, and JNI
    converts nothing: for a parameter of type [Object] the JVM takes a
    reference from the argument list.  The source puts a C double there
    and never makes a [java.lang.Double].  Which reference the JVM then
    takes is decided by nothing in the source: it is a parameter,
    [reference_taken]. *)
Class VarArgs : Type := {
  reference_taken : vararg_site -> jdouble -> jref
}.

(** The managed objects the binding returns, by their contents:
    [nullptr], a [java.util.HashMap] from key to reference, or a
    [java.util.ArrayList] of references. *)
Inductive jobject : Type :=
| nullptr
| HashMap (entries : gmap string jref)
| ArrayList (elems : list jref).

(** [env->NewObject(mapClass, mapInit)].  The class and method lookups
    ([FindClass], [GetMethodID]) and the local references of the keys
    ([NewStringUTF], [DeleteLocalRef]) decide nothing the binding tests;
    they are not represented. *)
Definition NewHashMap : jobject := HashMap ∅.

(** [env->NewObject(arrayListClass, arrayListInit)] *)
Definition NewArrayList : jobject := ArrayList [].

(** [env->CallObjectMethod(resultMap, mapPut, key, value)] with [value]
    a C double: [HashMap.put] binds [key], a real [java.lang.String],
    to the reference the JVM takes from the argument list, replacing an
    older binding. *)
Definition CallObjectMethod_put {jvm : VarArgs} (obj : jobject) (key : string)
    (value : jdouble) : jobject :=
  match obj with
  | HashMap entries =>
      HashMap (<[key := reference_taken (put_argument key) value]> entries)
  | other => other
  end.

(** [env->CallBooleanMethod(resultList, arrayListAdd, value)] with
    [value] a C double: [ArrayList.add] appends the reference the JVM
    takes from the argument list. *)
Definition CallBooleanMethod_add {jvm : VarArgs} (obj : jobject)
    (value : jdouble) : jobject :=
  match obj with
  | ArrayList elems =>
      ArrayList (elems ++ [reference_taken (add_argument (length elems)) value])
  | other => other
  end.

(** What the JNI environment does with a managed string:
    [GetStringUTFChars] yields its characters, or [nullptr] ([None])
    when they cannot be obtained. *)
Class JNIEnv : Type := {
  jstring : Type;
  GetStringUTFChars : jstring -> option string
}.

(** ** Control: state and C++ exceptions *)

(** The handlers of the source catch [const std::exception&]; it is the
    one thing thrown here. *)
Record std_exception : Type := { what : string }.

Inductive outcome (A : Type) : Type :=
| Returns (a : A)
| Throws (e : std_exception).
Arguments Returns {A} a.
Arguments Throws {A} e.

(** A computation over the process-wide state [St] of the library: it
    returns or throws, and leaves a state either way. *)
Definition M (St A : Type) : Type := St -> outcome A * St.

#[export] Instance M_ret (St : Type) : MRet (M St) :=
  fun A (a : A) (s : St) => (Returns a, s).

#[export] Instance M_bind (St : Type) : MBind (M St) :=
  fun A B (k : A -> M St B) (m : M St A) (s : St) =>
    match m s with
    | (Returns a, s') => k a s'
    | (Throws e, s') => (Throws e, s')
    end.

(** [try { body } catch (const std::exception& e) { handler }]: what the
    body did to the state before it threw stays done. *)
Definition try_catch {St A : Type} (body : M St A)
    (handler : std_exception -> M St A) : M St A :=
  fun s =>
    match body s with
    | (Returns a, s') => (Returns a, s')
    | (Throws e, s') => handler e s'
    end.

(** ** The library *)

(** The primitives of Swiss Ephemeris the binding calls, over the
    library's process-wide state [swe_data].  [ephe_path] and [sid_mode]
    read its two globals the specification names.  A primitive that
    fills arrays through pointers returns them next to its status.
    [SEFLG_SPEED] and [SEFLG_SIDEREAL] are constants of the library's
    header, which is not in the repository. *)
Class SwissEph : Type := {
  swe_data : Type;
  ephe_path : swe_data -> string;
  sid_mode : swe_data -> jint;
  SEFLG_SPEED : Z;
  SEFLG_SIDEREAL : Z;
  (** [void swe_set_ephe_path(const char *path)] *)
  swe_set_ephe_path : string -> M swe_data unit;
  (** [void swe_set_sid_mode(int32 sid_mode, double t0, double ayan_t0)] *)
  swe_set_sid_mode : jint -> jdouble -> jdouble -> M swe_data unit;
  (** [int32 swe_calc_ut(double tjd_ut, int32 ipl, int32 iflag,
                         double *xx, char *serr)] *)
  swe_calc_ut : jdouble -> Z -> Z -> M swe_data (Z * darray * string);
  (** [double swe_get_ayanamsa_ut(double tjd_ut)] *)
  swe_get_ayanamsa_ut : jdouble -> M swe_data jdouble;
  (** [int swe_houses(double tjd_ut, double geolat, double geolon,
                      int hsys, double *cusps, double *ascmc)] *)
  swe_houses : jdouble -> jdouble -> jdouble -> Z -> M swe_data (Z * darray * darray);
  (** [void swe_close(void)] *)
  swe_close : M swe_data unit
}.

(** ** The binding *)

Section Binding.
Context {lib : SwissEph} {env : JNIEnv} {jvm : VarArgs}.

(** Lines 73-93. *)
Definition Java_com_supernova_skvk_1application_SwissEphemerisWrapper_setEphemerisPath
    (path : jstring) : M swe_data jboolean :=
  try_catch
    (match GetStringUTFChars path with
     | None => mret JNI_FALSE
     | Some pathStr =>
         swe_set_ephe_path pathStr ;;
         (* env->ReleaseStringUTFChars(path, pathStr) *)
         mret JNI_TRUE
     end)
    (fun e => mret JNI_FALSE).

(** Lines 107-110: "Set ayanamsha if specified". *)
Definition set_ayanamsha_if_specified (ayanamsha : jint) : M swe_data unit :=
  if 0 <=? ayanamsha then swe_set_sid_mode ayanamsha 0%float 0%float
  else mret tt.

(** Lines 96-162. *)
Definition Java_com_supernova_skvk_1application_SwissEphemerisWrapper_getPlanetPositionInternal
    (julianDay : jdouble) (planet : jint)
    (latitude longitude : jdouble) (ayanamsha : jint) : M swe_data jobject :=
  try_catch
    (set_ayanamsha_if_specified ayanamsha ;;
     '(result, xx, serr) ← swe_calc_ut julianDay planet
                             (Z.lor SEFLG_SIDEREAL SEFLG_SPEED);
     if result <? 0 then mret nullptr
     else
       let resultMap := NewHashMap in
       let resultMap := CallObjectMethod_put resultMap "longitude" (xx 0%nat) in
       let resultMap := CallObjectMethod_put resultMap "latitude" (xx 1%nat) in
       let resultMap := CallObjectMethod_put resultMap "distance" (xx 2%nat) in
       let resultMap := CallObjectMethod_put resultMap "speed" (xx 3%nat) in
       mret resultMap)
    (fun e => mret nullptr).

(** Lines 165-178. *)
Definition Java_com_supernova_skvk_1application_SwissEphemerisWrapper_getAyanamshaInternal
    (julianDay : jdouble) (ayanamshaType : jint)
  : M swe_data jdouble :=
  try_catch
    (ayanamshaValue ← swe_get_ayanamsa_ut julianDay;
     mret ayanamshaValue)
    (fun e => mret 0%float).

(** Lines 219-222: [for (int i = 0; i < 12; i++)] adds [cusps[i + 1]]. *)
Definition add_all_12_house_cusps (cusps : darray) (resultList : jobject)
  : jobject :=
  fold_left
    (fun resultList i => CallBooleanMethod_add resultList (cusps (i + 1)%nat))
    (seq 0 12) resultList.

(** Lines 181-229. *)
Definition Java_com_supernova_skvk_1application_SwissEphemerisWrapper_getHouseCuspsInternal
    (julianDay latitude longitude : jdouble)
    (houseSystem : jint) : M swe_data jobject :=
  try_catch
    ('(result, cusps, ascmc) ← swe_houses julianDay latitude longitude
                                 houseSystem;
     if result <? 0 then mret nullptr
     else
       let resultList := NewArrayList in
       let resultList := add_all_12_house_cusps cusps resultList in
       mret resultList)
    (fun e => mret nullptr).

(** Lines 232-300. *)
Definition Java_com_supernova_skvk_1application_SwissEphemerisWrapper_getAscendantDataInternal
    (julianDay latitude longitude : jdouble)
    (houseSystem : jint) : M swe_data jobject :=
  try_catch
    ('(result, cusps, ascmc) ← swe_houses julianDay latitude longitude
                                 houseSystem;
     if result <? 0 then mret nullptr
     else
       let resultMap := NewHashMap in
       let resultMap := CallObjectMethod_put resultMap "ascendant" (ascmc 0%nat) in
       let resultMap := CallObjectMethod_put resultMap "midheaven" (ascmc 1%nat) in
       let resultMap := CallObjectMethod_put resultMap "armc" (ascmc 2%nat) in
       let resultMap := CallObjectMethod_put resultMap "vertex" (ascmc 3%nat) in
       let resultMap :=
         CallObjectMethod_put resultMap "equatorialAscendant" (ascmc 4%nat) in
       mret resultMap)
    (fun e => mret nullptr).

(** The path line 305 passes to [swe_set_ephe_path]. *)
Definition default_ephemeris_path : string :=
  "/data/data/com.supernova.skvk_application/files/ephemeris".

(** Lines 303-311.  [vm] and [reserved] are pointers; the hook has no
    handler of its own. *)
Definition JNI_OnLoad (vm reserved : Z) : M swe_data jint :=
  swe_set_ephe_path default_ephemeris_path ;;
  swe_close ;;
  mret JNI_VERSION_1_6.

End Binding.

(** The entry points under the names of the Kotlin methods they
    implement. *)
Abbreviation setEphemerisPath :=
  Java_com_supernova_skvk_1application_SwissEphemerisWrapper_setEphemerisPath.
Abbreviation getPlanetPositionInternal :=
  Java_com_supernova_skvk_1application_SwissEphemerisWrapper_getPlanetPositionInternal.
Abbreviation getAyanamshaInternal :=
  Java_com_supernova_skvk_1application_SwissEphemerisWrapper_getAyanamshaInternal.
Abbreviation getHouseCuspsInternal :=
  Java_com_supernova_skvk_1application_SwissEphemerisWrapper_getHouseCuspsInternal.
Abbreviation getAscendantDataInternal :=
  Java_com_supernova_skvk_1application_SwissEphemerisWrapper_getAscendantDataInternal.

(** ** What is assumed of the library *)

(** The library is third-party code.  Where a statement about the
    binding depends on what a configuration call does, or on a
    calculation leaving the configuration alone, the statement takes the
    matching property below as a hypothesis.  Nothing is assumed of the
    values a calculation returns, nor that a calculation returns at
    all. *)
Section Contract.
Context (lib : SwissEph).

(** [swe_set_ephe_path], a C function of result [void], returns. *)
Definition ephe_path_setter_returns : Prop :=
  forall (path : string) (s : swe_data),
    exists s', swe_set_ephe_path path s = (Returns tt, s').

(** [swe_set_ephe_path] returns and has stored the path. *)
Definition ephe_path_setter_ok : Prop :=
  forall (path : string) (s : swe_data),
    exists s', swe_set_ephe_path path s = (Returns tt, s')
               /\ ephe_path s' = path.

(** [swe_set_sid_mode] returns, has stored the mode and has left the
    ephemeris path alone. *)
Definition sid_mode_setter_ok : Prop :=
  forall (mode : jint) (t0 ayan_t0 : jdouble) (s : swe_data),
    exists s', swe_set_sid_mode mode t0 ayan_t0 s = (Returns tt, s')
               /\ sid_mode s' = mode /\ ephe_path s' = ephe_path s.

(** [swe_calc_ut] reads the two globals and does not write them,
    whatever its outcome. *)
Definition calc_keeps_globals : Prop :=
  forall (tjd_ut : jdouble) (ipl iflag : Z) (s : swe_data),
    ephe_path (snd (swe_calc_ut tjd_ut ipl iflag s)) = ephe_path s
    /\ sid_mode (snd (swe_calc_ut tjd_ut ipl iflag s)) = sid_mode s.

End Contract.

(** ** A small library to run the binding on *)

Module Toy.

Record data : Type := {
  path : string;
  mode : jint;
  files_open : bool
}.

Definition no_ephemeris : std_exception := {| what := "no ephemeris" |}.

Definition set_ephe_path (p : string) : M data unit :=
  fun s => (Returns tt, {| path := p; mode := mode s; files_open := files_open s |}).

Definition set_sid_mode (m : jint) (t0 ayan_t0 : jdouble) : M data unit :=
  fun s => (Returns tt, {| path := path s; mode := m; files_open := files_open s |}).

Definition xx_of (tjd_ut : jdouble) : darray :=
  fun i => match i with
           | 0%nat => tjd_ut
           | 1%nat => 1.5%float
           | 2%nat => 0.75%float
           | 3%nat => 13.25%float
           | _ => 0%float
           end.

(** Throws while no path is set, reports -1 for a negative body and the
    flags otherwise. *)
Definition calc_ut (tjd_ut : jdouble) (ipl iflag : Z)
  : M data (Z * darray * string) :=
  fun s =>
    if String.eqb (path s) "" then (Throws no_ephemeris, s)
    else if ipl <? 0 then
      (Returns (-1, xx_of tjd_ut, "illegal planet number"%string),
       {| path := path s; mode := mode s; files_open := true |})
    else
      (Returns (iflag, xx_of tjd_ut, ""%string),
       {| path := path s; mode := mode s; files_open := true |}).

Definition get_ayanamsa_ut (tjd_ut : jdouble) : M data jdouble :=
  fun s =>
    if String.eqb (path s) "" then (Throws no_ephemeris, s)
    else (Returns (if mode s =? 0 then 0%float else 24.125%float), s).

Definition cusps_of : darray :=
  fun i => nth i [0; 10; 40; 70; 100; 130; 160; 190; 220; 250; 280; 310; 340]%float
                 0%float.

Definition ascmc_of (geolon : jdouble) : darray :=
  fun i => nth i [10; 280; geolon; 190; 12]%float 0%float.

(** Knows the house system 'P' (80) alone. *)
Definition houses (tjd_ut geolat geolon : jdouble) (hsys : Z)
  : M data (Z * darray * darray) :=
  fun s =>
    if String.eqb (path s) "" then (Throws no_ephemeris, s)
    else (Returns (if hsys =? 80 then 0 else -1, cusps_of, ascmc_of geolon), s).

Definition close : M data unit :=
  fun s => (Returns tt, {| path := path s; mode := mode s; files_open := false |}).

#[export] Instance swe : SwissEph := {|
  swe_data := data;
  ephe_path := path;
  sid_mode := mode;
  SEFLG_SPEED := 256;
  SEFLG_SIDEREAL := 65536;
  swe_set_ephe_path := set_ephe_path;
  swe_set_sid_mode := set_sid_mode;
  swe_calc_ut := calc_ut;
  swe_get_ayanamsa_ut := get_ayanamsa_ut;
  swe_houses := houses;
  swe_close := close
|}.

(** A managed string is its characters, or unreadable. *)
#[export] Instance jni : JNIEnv := {|
  jstring := option string;
  GetStringUTFChars := fun str => str
|}.

Definition fresh : data := {| path := ""; mode := 0; files_open := false |}.

Definition ready : data :=
  {| path := "/sdcard/ephe"; mode := 0; files_open := false |}.

End Toy.

(** ** A library whose every primitive throws *)

Module Faulty.

Definition fault : std_exception := {| what := "fault" |}.

(** Throws and leaves the state as it found it. *)
Definition throwing {A : Type} : M Toy.data A :=
  fun s => (Throws fault, s).

#[export] Instance swe : SwissEph := {|
  swe_data := Toy.data;
  ephe_path := Toy.path;
  sid_mode := Toy.mode;
  SEFLG_SPEED := 256;
  SEFLG_SIDEREAL := 65536;
  swe_set_ephe_path := fun _ => throwing;
  swe_set_sid_mode := fun _ _ _ => throwing;
  swe_calc_ut := fun _ _ _ => throwing;
  swe_get_ayanamsa_ut := fun _ => throwing;
  swe_houses := fun _ _ _ _ => throwing;
  swe_close := throwing
|}.

End Faulty.

(** ** Two ways a JVM may read the argument list *)

Module Stray.

(** Takes the null reference wherever a C double was passed. *)
Definition null_reading : VarArgs :=
  {| reference_taken := fun _ _ => null_ref |}.

(** Takes another bit pattern at every place. *)
Definition garbage_reading : VarArgs :=
  {| reference_taken := fun site _ =>
       match site with
       | put_argument key => stray_ref (Z.of_nat (String.length key))
       | add_argument position => stray_ref (Z.of_nat position)
       end |}.

End Stray.

(** ** Running the binding *)

(** The domain of a map built by successive [put]s, and its lookups. *)
Ltac solve_dom := rewrite !dom_insert_L, dom_empty_L; set_solver.
Ltac solve_lookups := repeat split; simplify_map_eq; reflexivity.

Section Steps.
Context {lib : SwissEph} {env : JNIEnv} {jvm : VarArgs}.

Lemma bind_returns {A B : Type} (m : M swe_data A) (k : A -> M swe_data B)
    (s s' : swe_data) (a : A) :
  m s = (Returns a, s') -> (m ≫= k) s = k a s'.
Proof. intros Hm. unfold mbind, M_bind. now rewrite Hm. Qed.

Lemma bind_throws {A B : Type} (m : M swe_data A) (k : A -> M swe_data B)
    (s s' : swe_data) (e : std_exception) :
  m s = (Throws e, s') -> (m ≫= k) s = (Throws e, s').
Proof. intros Hm. unfold mbind, M_bind. now rewrite Hm. Qed.

(** The loop of lines 219-222 makes twelve [add] calls, for [cusps[1]]
    to [cusps[12]] in that order. *)
Lemma add_all_12_house_cusps_spec (cusps : darray) :
  add_all_12_house_cusps cusps NewArrayList =
  ArrayList (map (fun i => reference_taken (add_argument i) (cusps (i + 1)%nat))
                 (seq 0 12)).
Proof. reflexivity. Qed.

(** X3.  When [swe_set_ephe_path] throws, the handler of lines 90-92
    answers false, and the state is the one the setter left. *)
Lemma setEphemerisPath_fault (path : jstring) (pathStr : string)
    (s s' : swe_data) (e : std_exception) :
  GetStringUTFChars path = Some pathStr ->
  swe_set_ephe_path pathStr s = (Throws e, s') ->
  setEphemerisPath path s = (Returns JNI_FALSE, s').
Proof.
  intros Hchars Hset. unfold setEphemerisPath, try_catch. rewrite Hchars.
  now rewrite (bind_throws _ _ _ _ _ Hset).
Qed.

End Steps.

(** ** The position of a body *)

Section PlanetPosition.
Context {lib : SwissEph} {jvm : VarArgs}.

(** What a position call does, by the outcomes of the two primitives it
    calls.  Neither [latitude] nor [longitude] occurs on the right. *)
Lemma getPlanetPosition_run (julianDay : jdouble) (planet : jint)
    (latitude longitude : jdouble) (ayanamsha : jint) (s : swe_data) :
  getPlanetPositionInternal julianDay planet latitude longitude ayanamsha s
  = match set_ayanamsha_if_specified ayanamsha s with
    | (Throws e, s1) => (Returns nullptr, s1)
    | (Returns _, s1) =>
        match swe_calc_ut julianDay planet (Z.lor SEFLG_SIDEREAL SEFLG_SPEED)
                s1 with
        | (Throws e, s2) => (Returns nullptr, s2)
        | (Returns (result, xx, serr), s2) =>
            (Returns
               (if result <? 0 then nullptr
                else HashMap
                       (<["speed" :=
                            reference_taken (put_argument "speed") (xx 3%nat)]>
                         (<["distance" :=
                              reference_taken (put_argument "distance")
                                (xx 2%nat)]>
                           (<["latitude" :=
                                reference_taken (put_argument "latitude")
                                  (xx 1%nat)]>
                             (<["longitude" :=
                                  reference_taken (put_argument "longitude")
                                    (xx 0%nat)]> ∅))))),
             s2)
        end
    end.
Proof.
  unfold getPlanetPositionInternal, try_catch, mbind, M_bind.
  destruct (set_ayanamsha_if_specified ayanamsha s) as [[[] | e] s1];
    [| reflexivity].
  destruct (swe_calc_ut _ _ _ s1) as [[[[result xx] serr] | e] s2];
    [destruct (result <? 0) |]; reflexivity.
Qed.

(** C1.  In a call of [getPlanetPositionInternal] that reaches the
    position calculation, a status that is not negative gives a map with
    exactly the keys longitude, latitude, distance and speed, and a
    negative status gives [nullptr].  The keys are not bound to elements
    0 to 3 of the array the library filled: lines 139-154 pass each
    element as a C double where [put] takes an [Object], so each key is
    bound to the reference the JVM takes from the argument list, and it
    is bound to a [java.lang.Double] of the element only when that
    reference happens to be one. *)
Theorem getPlanetPosition_binds_argument_references
    (julianDay : jdouble) (planet : jint) (latitude longitude : jdouble)
    (ayanamsha : jint) (s s1 s2 : swe_data)
    (result : Z) (xx : darray) (serr : string) :
  set_ayanamsha_if_specified ayanamsha s = (Returns tt, s1) ->
  swe_calc_ut julianDay planet (Z.lor SEFLG_SIDEREAL SEFLG_SPEED) s1
    = (Returns (result, xx, serr), s2) ->
  (0 <= result ->
   exists entries : gmap string jref,
     getPlanetPositionInternal julianDay planet latitude longitude ayanamsha s
       = (Returns (HashMap entries), s2)
     /\ dom entries = ({[ "longitude"; "latitude"; "distance"; "speed" ]} : gset string)
     /\ entries !! "longitude"
        = Some (reference_taken (put_argument "longitude") (xx 0%nat))
     /\ entries !! "latitude"
        = Some (reference_taken (put_argument "latitude") (xx 1%nat))
     /\ entries !! "distance"
        = Some (reference_taken (put_argument "distance") (xx 2%nat))
     /\ entries !! "speed"
        = Some (reference_taken (put_argument "speed") (xx 3%nat))
     /\ (entries !! "longitude" = Some (Double_ref (xx 0%nat))
         <-> reference_taken (put_argument "longitude") (xx 0%nat)
             = Double_ref (xx 0%nat)))
  /\ (result < 0 ->
      getPlanetPositionInternal julianDay planet latitude longitude ayanamsha s
        = (Returns nullptr, s2)).
Proof.
  intros Hsid Hcalc. rewrite getPlanetPosition_run, Hsid, Hcalc.
  split; intros Hstatus.
  - destruct (Z.ltb_spec result 0) as [Hneg | _]; [lia |].
    eexists. split; [reflexivity |].
    split; [solve_dom |].
    repeat (split; [simplify_map_eq; reflexivity |]).
    simplify_map_eq. split; intros Heq; congruence.
  - destruct (Z.ltb_spec result 0) as [_ | Hpos]; [reflexivity | lia].
Qed.

(** C9.  Two calls of [getPlanetPositionInternal] that differ in the
    latitude and longitude arguments only give the same result and leave
    the same state. *)
Theorem getPlanetPosition_ignores_location
    (julianDay : jdouble) (planet : jint) (ayanamsha : jint)
    (latitude longitude latitude' longitude' : jdouble) (s : swe_data) :
  getPlanetPositionInternal julianDay planet latitude longitude ayanamsha s
  = getPlanetPositionInternal julianDay planet latitude' longitude' ayanamsha s.
Proof.
  rewrite (getPlanetPosition_run julianDay planet latitude longitude).
  rewrite (getPlanetPosition_run julianDay planet latitude' longitude').
  reflexivity.
Qed.

(** ** The sidereal mode across a position call *)

(** The state a position call leaves is the one [swe_calc_ut] leaves,
    whatever the status, once the calculation is reached. *)
Lemma getPlanetPosition_final_state
    (julianDay : jdouble) (planet : jint) (latitude longitude : jdouble)
    (ayanamsha : jint) (s s1 : swe_data) :
  set_ayanamsha_if_specified ayanamsha s = (Returns tt, s1) ->
  snd (getPlanetPositionInternal julianDay planet latitude longitude ayanamsha s)
  = snd (swe_calc_ut julianDay planet (Z.lor SEFLG_SIDEREAL SEFLG_SPEED) s1).
Proof.
  intros Hsid. rewrite getPlanetPosition_run, Hsid.
  destruct (swe_calc_ut _ _ _ s1) as [[[[result xx] serr] | e] s2];
    reflexivity.
Qed.

(** The two ways lines 107-110 go. *)
Lemma set_ayanamsha_specified (ayanamsha : jint) (s : swe_data) :
  0 <= ayanamsha ->
  set_ayanamsha_if_specified ayanamsha s
  = swe_set_sid_mode ayanamsha 0%float 0%float s.
Proof.
  intros Hge. unfold set_ayanamsha_if_specified.
  destruct (Z.leb_spec 0 ayanamsha); [reflexivity | lia].
Qed.

Lemma set_ayanamsha_unspecified (ayanamsha : jint) (s : swe_data) :
  ayanamsha < 0 ->
  set_ayanamsha_if_specified ayanamsha s = (Returns tt, s).
Proof.
  intros Hlt. unfold set_ayanamsha_if_specified.
  destruct (Z.leb_spec 0 ayanamsha); [lia | reflexivity].
Qed.

(** C6.  For a library whose mode setter stores the mode and whose
    position calculation leaves the two globals alone: a call of
    [getPlanetPositionInternal] with a non-negative [ayanamsha] runs the
    position calculation in a state whose sidereal mode is [ayanamsha],
    and leaves that mode behind; a call with a negative [ayanamsha]
    leaves the sidereal mode it found; either call leaves the ephemeris
    path it found. *)
Theorem getPlanetPosition_sidereal_mode
    (Hset : sid_mode_setter_ok lib) (Hcalc : calc_keeps_globals lib)
    (julianDay : jdouble) (planet : jint) (latitude longitude : jdouble)
    (ayanamsha : jint) (s : swe_data) :
  exists s1 : swe_data,
    set_ayanamsha_if_specified ayanamsha s = (Returns tt, s1)
    /\ snd (getPlanetPositionInternal julianDay planet latitude longitude
              ayanamsha s)
       = snd (swe_calc_ut julianDay planet (Z.lor SEFLG_SIDEREAL SEFLG_SPEED) s1)
    /\ (0 <= ayanamsha ->
        sid_mode s1 = ayanamsha
        /\ sid_mode (snd (getPlanetPositionInternal julianDay planet latitude
                            longitude ayanamsha s)) = ayanamsha)
    /\ (ayanamsha < 0 ->
        s1 = s
        /\ sid_mode (snd (getPlanetPositionInternal julianDay planet latitude
                            longitude ayanamsha s)) = sid_mode s)
    /\ ephe_path (snd (getPlanetPositionInternal julianDay planet latitude
                         longitude ayanamsha s)) = ephe_path s.
Proof.
  destruct (Z.le_gt_cases 0 ayanamsha) as [Hge | Hlt].
  - destruct (Hset ayanamsha 0%float 0%float s) as (s1 & Hs1 & Hmode & Hpath).
    rewrite <- (set_ayanamsha_specified _ _ Hge) in Hs1.
    exists s1. split; [exact Hs1 |].
    rewrite (getPlanetPosition_final_state _ _ _ _ _ _ _ Hs1).
    destruct (Hcalc julianDay planet (Z.lor SEFLG_SIDEREAL SEFLG_SPEED) s1)
      as [Hp Hm].
    split; [reflexivity |].
    split; [intros _; split; [exact Hmode | congruence] |].
    split; [intros Hneg; lia | congruence].
  - assert (Hs1 := set_ayanamsha_unspecified ayanamsha s ltac:(lia)).
    exists s. split; [exact Hs1 |].
    rewrite (getPlanetPosition_final_state _ _ _ _ _ _ _ Hs1).
    destruct (Hcalc julianDay planet (Z.lor SEFLG_SIDEREAL SEFLG_SPEED) s)
      as [Hp Hm].
    split; [reflexivity |].
    split; [intros Hpos; lia |].
    split; [intros _; split; [reflexivity | exact Hm] | exact Hp].
Qed.

(** C10.  For such a library: when a call of
    [getPlanetPositionInternal] with a non-negative [ayanamsha] has set
    the mode and [swe_calc_ut] then reports a negative status, the call
    returns [nullptr], yet the sidereal mode was [ayanamsha] when the
    calculation ran and is [ayanamsha] after the call. *)
Theorem getPlanetPosition_failure_keeps_new_mode
    (Hset : sid_mode_setter_ok lib) (Hcalc : calc_keeps_globals lib)
    (julianDay : jdouble) (planet : jint) (latitude longitude : jdouble)
    (ayanamsha : jint) (s s1 s2 : swe_data)
    (result : Z) (xx : darray) (serr : string) :
  0 <= ayanamsha ->
  swe_set_sid_mode ayanamsha 0%float 0%float s = (Returns tt, s1) ->
  swe_calc_ut julianDay planet (Z.lor SEFLG_SIDEREAL SEFLG_SPEED) s1
    = (Returns (result, xx, serr), s2) ->
  result < 0 ->
  getPlanetPositionInternal julianDay planet latitude longitude ayanamsha s
    = (Returns nullptr, s2)
  /\ sid_mode s1 = ayanamsha
  /\ sid_mode s2 = ayanamsha.
Proof.
  intros Hge Hs1 Hs2 Hneg.
  assert (Hmode : sid_mode s1 = ayanamsha).
  { destruct (Hset ayanamsha 0%float 0%float s) as (s1' & Hs1' & Hm & _).
    congruence. }
  split; [| split; [exact Hmode |]].
  - rewrite getPlanetPosition_run, (set_ayanamsha_specified _ _ Hge), Hs1, Hs2.
    destruct (Z.ltb_spec result 0); [reflexivity | lia].
  - destruct (Hcalc julianDay planet (Z.lor SEFLG_SIDEREAL SEFLG_SPEED) s1)
      as [_ Hm].
    rewrite Hs2 in Hm. simpl in Hm. congruence.
Qed.

End PlanetPosition.

(** ** The ayanamsha *)

Section Ayanamsha.
Context {lib : SwissEph}.

(** What an ayanamsha call does, by the outcome of the one primitive it
    calls.  [ayanamshaType] does not occur on the right. *)
Lemma getAyanamsha_run (julianDay : jdouble) (ayanamshaType : jint)
    (s : swe_data) :
  getAyanamshaInternal julianDay ayanamshaType s
  = match swe_get_ayanamsa_ut julianDay s with
    | (Returns ayanamshaValue, s') => (Returns ayanamshaValue, s')
    | (Throws e, s') => (Returns 0%float, s')
    end.
Proof.
  unfold getAyanamshaInternal, try_catch, mbind, M_bind.
  destruct (swe_get_ayanamsa_ut julianDay s) as [[value | e] s'];
    reflexivity.
Qed.

(** C3.  Two calls of [getAyanamshaInternal] with the same Julian day
    and any two values of [ayanamshaType], from the same state, give the
    same result and leave the same state. *)
Theorem getAyanamsha_ignores_type
    (julianDay : jdouble) (ayanamshaType ayanamshaType' : jint)
    (s : swe_data) :
  getAyanamshaInternal julianDay ayanamshaType s
  = getAyanamshaInternal julianDay ayanamshaType' s.
Proof.
  rewrite (getAyanamsha_run julianDay ayanamshaType).
  rewrite (getAyanamsha_run julianDay ayanamshaType').
  reflexivity.
Qed.

(** C4.  When [swe_get_ayanamsa_ut] throws, [getAyanamshaInternal]
    returns 0.0 and throws nothing; a call in which the library returned
    the offset 0.0 gives the caller the very same answer. *)
Theorem getAyanamsha_fault_is_zero
    (julianDay : jdouble) (ayanamshaType : jint) (s s' : swe_data)
    (e : std_exception) :
  swe_get_ayanamsa_ut julianDay s = (Throws e, s') ->
  getAyanamshaInternal julianDay ayanamshaType s = (Returns 0%float, s')
  /\ forall (julianDay0 : jdouble) (ayanamshaType0 : jint) (s0 s0' : swe_data),
       swe_get_ayanamsa_ut julianDay0 s0 = (Returns 0%float, s0') ->
       fst (getAyanamshaInternal julianDay0 ayanamshaType0 s0)
       = fst (getAyanamshaInternal julianDay ayanamshaType s).
Proof.
  intros Hthrow. rewrite (getAyanamsha_run julianDay), Hthrow.
  split; [reflexivity |].
  intros julianDay0 ayanamshaType0 s0 s0' Hzero.
  rewrite getAyanamsha_run, Hzero. reflexivity.
Qed.

End Ayanamsha.

(** ** Houses *)

Section Houses.
Context {lib : SwissEph} {jvm : VarArgs}.

(** What both house entry points do with the outcome of [swe_houses]. *)
Lemma getHouseCusps_run (julianDay latitude longitude : jdouble)
    (houseSystem : jint) (s : swe_data) :
  getHouseCuspsInternal julianDay latitude longitude houseSystem s
  = match swe_houses julianDay latitude longitude houseSystem s with
    | (Returns (result, cusps, ascmc), s') =>
        (Returns
           (if result <? 0 then nullptr
            else ArrayList
                   (map (fun i => reference_taken (add_argument i)
                                    (cusps (i + 1)%nat))
                        (seq 0 12))),
         s')
    | (Throws e, s') => (Returns nullptr, s')
    end.
Proof.
  unfold getHouseCuspsInternal, try_catch, mbind, M_bind.
  destruct (swe_houses _ _ _ _ s) as [[[[result cusps] ascmc] | e] s'];
    [destruct (result <? 0) |]; reflexivity.
Qed.

Lemma getAscendantData_run (julianDay latitude longitude : jdouble)
    (houseSystem : jint) (s : swe_data) :
  getAscendantDataInternal julianDay latitude longitude houseSystem s
  = match swe_houses julianDay latitude longitude houseSystem s with
    | (Returns (result, cusps, ascmc), s') =>
        (Returns
           (if result <? 0 then nullptr
            else HashMap
                   (<["equatorialAscendant" :=
                        reference_taken (put_argument "equatorialAscendant")
                          (ascmc 4%nat)]>
                     (<["vertex" :=
                          reference_taken (put_argument "vertex")
                            (ascmc 3%nat)]>
                       (<["armc" :=
                            reference_taken (put_argument "armc")
                              (ascmc 2%nat)]>
                         (<["midheaven" :=
                              reference_taken (put_argument "midheaven")
                                (ascmc 1%nat)]>
                           (<["ascendant" :=
                                reference_taken (put_argument "ascendant")
                                  (ascmc 0%nat)]> ∅)))))),
         s')
    | (Throws e, s') => (Returns nullptr, s')
    end.
Proof.
  unfold getAscendantDataInternal, try_catch, mbind, M_bind.
  destruct (swe_houses _ _ _ _ s) as [[[[result cusps] ascmc] | e] s'];
    [destruct (result <? 0) |]; reflexivity.
Qed.

Lemma twelve_cusps_lookup (cusps : darray) (i : nat) :
  (1 <= i <= 12)%nat ->
  map (fun i => reference_taken (add_argument i) (cusps (i + 1)%nat))
      (seq 0 12) !! (i - 1)%nat
  = Some (reference_taken (add_argument (i - 1)) (cusps i)).
Proof.
  intros Hi.
  assert (Hcases : i = 1%nat \/ i = 2%nat \/ i = 3%nat \/ i = 4%nat
                   \/ i = 5%nat \/ i = 6%nat \/ i = 7%nat \/ i = 8%nat
                   \/ i = 9%nat \/ i = 10%nat \/ i = 11%nat \/ i = 12%nat)
    by lia.
  repeat (destruct Hcases as [-> | Hcases]; [reflexivity |]).
  subst i. reflexivity.
Qed.

(** C2.  Every call of [getHouseCuspsInternal] returns [nullptr] or a
    list of exactly twelve elements, one for each of [cusps[1]] to
    [cusps[12]] in that order, [cusps[0]] being left out.  The element
    in place i is not element i of the cusp array: line 221 passes it
    as a C double where [add] takes an [Object], so the list holds the
    reference the JVM takes from the argument list, and it holds a
    [java.lang.Double] of [cusps[i]] only when that reference happens
    to be one. *)
Theorem getHouseCusps_twelve_argument_references
    (julianDay latitude longitude : jdouble) (houseSystem : jint)
    (s : swe_data) :
  fst (getHouseCuspsInternal julianDay latitude longitude houseSystem s)
    = Returns nullptr
  \/ exists (result : Z) (cusps ascmc : darray) (s' : swe_data)
            (elems : list jref),
       swe_houses julianDay latitude longitude houseSystem s
         = (Returns (result, cusps, ascmc), s')
       /\ getHouseCuspsInternal julianDay latitude longitude houseSystem s
          = (Returns (ArrayList elems), s')
       /\ length elems = 12%nat
       /\ forall i : nat, (1 <= i <= 12)%nat ->
            elems !! (i - 1)%nat
              = Some (reference_taken (add_argument (i - 1)) (cusps i))
            /\ (elems !! (i - 1)%nat = Some (Double_ref (cusps i))
                <-> reference_taken (add_argument (i - 1)) (cusps i)
                    = Double_ref (cusps i)).
Proof.
  rewrite getHouseCusps_run.
  destruct (swe_houses _ _ _ _ s) as [[[[result cusps] ascmc] | e] s'];
    [| left; reflexivity].
  destruct (result <? 0); [left; reflexivity |].
  right. exists result, cusps, ascmc, s'. eexists.
  split; [reflexivity |]. split; [reflexivity |].
  split; [reflexivity |]. intros i Hi.
  rewrite (twelve_cusps_lookup cusps i Hi).
  split; [reflexivity | split; intros Heq; congruence].
Qed.

(** C7.  From the same state and with the same arguments,
    [getHouseCuspsInternal] and [getAscendantDataInternal] rest on the
    same call of [swe_houses]: they leave the state it leaves, one
    returns [nullptr] exactly when the other does, and when the status
    is not negative the list has an element for each of cusps 1 to 12
    and the map has the keys ascendant, midheaven, armc, vertex and
    equatorialAscendant, and those only.  The five values are not
    elements 0 to 4 of the auxiliary array: lines 272-292 pass each as a
    C double where [put] takes an [Object], so each key is bound to the
    reference the JVM takes from the argument list. *)
Theorem houses_and_ascendant_share_one_call
    (julianDay latitude longitude : jdouble) (houseSystem : jint)
    (s : swe_data) :
  exists (o : outcome (Z * darray * darray)) (s' : swe_data),
    swe_houses julianDay latitude longitude houseSystem s = (o, s')
    /\ snd (getHouseCuspsInternal julianDay latitude longitude houseSystem s)
       = s'
    /\ snd (getAscendantDataInternal julianDay latitude longitude houseSystem s)
       = s'
    /\ (fst (getHouseCuspsInternal julianDay latitude longitude houseSystem s)
          = Returns nullptr
        <-> fst (getAscendantDataInternal julianDay latitude longitude
                   houseSystem s) = Returns nullptr)
    /\ forall (result : Z) (cusps ascmc : darray),
         o = Returns (result, cusps, ascmc) -> 0 <= result ->
         exists entries : gmap string jref,
           fst (getHouseCuspsInternal julianDay latitude longitude houseSystem s)
             = Returns (ArrayList
                          (map (fun i => reference_taken (add_argument i)
                                           (cusps (i + 1)%nat))
                               (seq 0 12)))
           /\ fst (getAscendantDataInternal julianDay latitude longitude
                     houseSystem s) = Returns (HashMap entries)
           /\ dom entries
              = ({[ "ascendant"; "midheaven"; "armc"; "vertex";
                    "equatorialAscendant" ]} : gset string)
           /\ entries !! "ascendant"
              = Some (reference_taken (put_argument "ascendant") (ascmc 0%nat))
           /\ entries !! "midheaven"
              = Some (reference_taken (put_argument "midheaven") (ascmc 1%nat))
           /\ entries !! "armc"
              = Some (reference_taken (put_argument "armc") (ascmc 2%nat))
           /\ entries !! "vertex"
              = Some (reference_taken (put_argument "vertex") (ascmc 3%nat))
           /\ entries !! "equatorialAscendant"
              = Some (reference_taken (put_argument "equatorialAscendant")
                        (ascmc 4%nat)).
Proof.
  rewrite getHouseCusps_run, getAscendantData_run.
  destruct (swe_houses _ _ _ _ s) as [[[[result cusps] ascmc] | e] s'].
  - eexists _, s'. split; [reflexivity |]. simpl.
    split; [reflexivity |]. split; [reflexivity |].
    split.
    + destruct (result <? 0); split; intros H; (reflexivity || discriminate H).
    + intros result0 cusps0 ascmc0 Ho Hge. injection Ho as -> -> ->.
      destruct (Z.ltb_spec result0 0) as [Hlt | _]; [lia |].
      eexists. split; [reflexivity |]. split; [reflexivity |].
      split; [solve_dom | solve_lookups].
  - eexists _, s'. split; [reflexivity |]. simpl.
    split; [reflexivity |]. split; [reflexivity |].
    split; [split; reflexivity | intros ? ? ? Ho; discriminate Ho].
Qed.

End Houses.

(** ** The ephemeris path *)

Section EphemerisPath.
Context {lib : SwissEph} {env : JNIEnv}.

(** C5.  For a library whose path setter returns: [setEphemerisPath]
    answers false when the characters of the string cannot be obtained,
    and leaves the state alone; for every string that can be read it
    hands the characters to [swe_set_ephe_path] and answers true,
    whatever directory, existing or not, the characters name. *)
Theorem setEphemerisPath_true_unless_unreadable
    (Hset : ephe_path_setter_returns lib) (path : jstring) (s : swe_data) :
  match GetStringUTFChars path with
  | None => setEphemerisPath path s = (Returns JNI_FALSE, s)
  | Some pathStr =>
      setEphemerisPath path s
        = (Returns JNI_TRUE, snd (swe_set_ephe_path pathStr s))
  end.
Proof.
  unfold setEphemerisPath, try_catch.
  destruct (GetStringUTFChars path) as [pathStr |]; [| reflexivity].
  destruct (Hset pathStr s) as (s' & Hs').
  now rewrite (bind_returns _ _ _ _ _ Hs'), Hs'.
Qed.

(** C8.  For such a library: [JNI_OnLoad], whatever [vm] and [reserved]
    are, first sets the ephemeris path to the fixed default, then calls
    [swe_close] in the state that leaves, and returns
    [JNI_VERSION_1_6] when [swe_close] returns. *)
Theorem JNI_OnLoad_sets_default_path_then_closes
    (Hset : ephe_path_setter_ok lib) (vm reserved : Z) (s : swe_data) :
  exists s1 : swe_data,
    swe_set_ephe_path default_ephemeris_path s = (Returns tt, s1)
    /\ ephe_path s1 = default_ephemeris_path
    /\ JNI_OnLoad vm reserved s
       = (match fst (swe_close s1) with
          | Returns _ => Returns JNI_VERSION_1_6
          | Throws e => Throws e
          end, snd (swe_close s1))
    /\ forall vm' reserved' : Z,
         JNI_OnLoad vm' reserved' s = JNI_OnLoad vm reserved s.
Proof.
  destruct (Hset default_ephemeris_path s) as (s1 & Hs1 & Hpath).
  exists s1. split; [exact Hs1 |]. split; [exact Hpath |].
  split; [| reflexivity].
  unfold JNI_OnLoad. rewrite (bind_returns _ _ _ _ _ Hs1).
  unfold mbind, M_bind.
  destruct (swe_close s1) as [[[] | e] s2]; reflexivity.
Qed.

End EphemerisPath.

(** ** The binding on the small library *)

Lemma toy_ephe_path_setter_ok : ephe_path_setter_ok Toy.swe.
Proof. intros path s. eexists. repeat split. Qed.

Lemma toy_ephe_path_setter_returns : ephe_path_setter_returns Toy.swe.
Proof. intros path s. eexists. reflexivity. Qed.

Lemma toy_sid_mode_setter_ok : sid_mode_setter_ok Toy.swe.
Proof. intros mode t0 ayan_t0 s. eexists. repeat split. Qed.

Lemma toy_calc_keeps_globals : calc_keeps_globals Toy.swe.
Proof.
  intros tjd_ut ipl iflag s. simpl. unfold Toy.calc_ut.
  destruct (String.eqb _ _); [| destruct (ipl <? 0)]; split; reflexivity.
Qed.

(** On the small library, under a JVM that takes the null reference
    from the argument list, the status 65792 gives a map with the four
    keys in which longitude is bound to null, not to a
    [java.lang.Double] of element 0; a negative body gives [nullptr]. *)
Lemma getPlanetPosition_binds_argument_references_witness :
  (exists entries : gmap string jref,
     getPlanetPositionInternal (lib := Toy.swe) (jvm := Stray.null_reading)
         2451545%float 0 0%float 0%float 1 Toy.ready
       = (Returns (HashMap entries),
          {| Toy.path := "/sdcard/ephe"; Toy.mode := 1; Toy.files_open := true |})
     /\ dom entries
        = ({[ "longitude"; "latitude"; "distance"; "speed" ]} : gset string)
     /\ entries !! "longitude" = Some null_ref
     /\ entries !! "longitude" <> Some (Double_ref 2451545%float))
  /\ getPlanetPositionInternal (lib := Toy.swe) (jvm := Stray.null_reading)
         2451545%float (-1) 0%float 0%float 1 Toy.ready
     = (Returns nullptr,
        {| Toy.path := "/sdcard/ephe"; Toy.mode := 1; Toy.files_open := true |}).
Proof.
  split.
  - destruct (proj1 (getPlanetPosition_binds_argument_references
                       (lib := Toy.swe) (jvm := Stray.null_reading)
                       2451545%float 0 0%float 0%float 1 Toy.ready
                       {| Toy.path := "/sdcard/ephe"; Toy.mode := 1;
                          Toy.files_open := false |}
                       {| Toy.path := "/sdcard/ephe"; Toy.mode := 1;
                          Toy.files_open := true |}
                       65792 (Toy.xx_of 2451545%float) "" eq_refl eq_refl)
                ltac:(simpl; lia))
      as (entries & Hrun & Hdom & Hlong & _ & _ & _ & Hiff).
    exists entries. split; [exact Hrun |]. split; [exact Hdom |].
    split; [exact Hlong |].
    intros Hboxed. apply Hiff in Hboxed. discriminate Hboxed.
  - apply (proj2 (getPlanetPosition_binds_argument_references
                    (lib := Toy.swe) (jvm := Stray.null_reading)
                    2451545%float (-1) 0%float 0%float 1 Toy.ready
                    {| Toy.path := "/sdcard/ephe"; Toy.mode := 1;
                       Toy.files_open := false |}
                    {| Toy.path := "/sdcard/ephe"; Toy.mode := 1;
                       Toy.files_open := true |}
                    (-1) (Toy.xx_of 2451545%float) "illegal planet number"
                    eq_refl eq_refl)).
    lia.
Defined.

(** On the small library, under the same JVM, the cusp list has twelve
    elements and the first is null, not a [java.lang.Double] of
    [cusps[1]]. *)
Lemma getHouseCusps_twelve_argument_references_witness :
  exists elems : list jref,
    fst (getHouseCuspsInternal (lib := Toy.swe) (jvm := Stray.null_reading)
           2451545%float 48%float 11.5%float 80 Toy.ready)
      = Returns (ArrayList elems)
    /\ length elems = 12%nat
    /\ elems !! 0%nat = Some null_ref
    /\ elems !! 0%nat <> Some (Double_ref 10%float).
Proof.
  destruct (getHouseCusps_twelve_argument_references (lib := Toy.swe)
              (jvm := Stray.null_reading) 2451545%float 48%float 11.5%float
              80 Toy.ready)
    as [Habsent | (result & cusps & ascmc & s' & elems & Hh & Hrun & Hlen
                   & Helems)].
  - vm_compute in Habsent. discriminate Habsent.
  - exists elems. rewrite Hrun. split; [reflexivity |].
    split; [exact Hlen |].
    destruct (Helems 1%nat ltac:(lia)) as [Hfirst _].
    simpl in Hfirst. rewrite Hfirst.
    split; [reflexivity | discriminate].
Defined.

(** On the small library, under the same JVM, both house calls succeed
    and the map binds ascendant to null, not to a [java.lang.Double] of
    [ascmc[0]]. *)
Lemma houses_and_ascendant_share_one_call_witness :
  exists entries : gmap string jref,
    fst (getAscendantDataInternal (lib := Toy.swe) (jvm := Stray.null_reading)
           2451545%float 48%float 11.5%float 80 Toy.ready)
      = Returns (HashMap entries)
    /\ entries !! "ascendant" = Some null_ref
    /\ entries !! "ascendant" <> Some (Double_ref 10%float).
Proof.
  destruct (houses_and_ascendant_share_one_call (lib := Toy.swe)
              (jvm := Stray.null_reading) 2451545%float 48%float 11.5%float
              80 Toy.ready)
    as (o & s' & Hh & _ & _ & _ & Hvalues).
  simpl in Hh. injection Hh as <- <-.
  destruct (Hvalues 0 Toy.cusps_of (Toy.ascmc_of 11.5%float) eq_refl
              ltac:(lia))
    as (entries & _ & Hrun & _ & Hasc & _).
  exists entries. split; [exact Hrun |]. rewrite Hasc.
  split; [reflexivity | discriminate].
Defined.

(** On the small library a call with ayanamsha 1 leaves mode 1, a call
    with ayanamsha -1 leaves the mode 0 it found, and both leave the
    path. *)
Lemma getPlanetPosition_sidereal_mode_witness :
  (sid_mode (snd (getPlanetPositionInternal (lib := Toy.swe) (jvm := Stray.null_reading) 2451545%float 0
                    0%float 0%float 1 Toy.ready)) = 1
   /\ ephe_path (snd (getPlanetPositionInternal (lib := Toy.swe) (jvm := Stray.null_reading) 2451545%float
                        0 0%float 0%float 1 Toy.ready)) = "/sdcard/ephe"%string)
  /\ sid_mode (snd (getPlanetPositionInternal (lib := Toy.swe) (jvm := Stray.null_reading) 2451545%float 0
                      0%float 0%float (-1) Toy.ready)) = 0.
Proof.
  split.
  - destruct (getPlanetPosition_sidereal_mode (lib := Toy.swe) (jvm := Stray.null_reading)
                toy_sid_mode_setter_ok toy_calc_keeps_globals
                2451545%float 0 0%float 0%float 1 Toy.ready)
      as (s1 & _ & _ & Hset & _ & Hpath).
    split; [apply Hset; lia | exact Hpath].
  - destruct (getPlanetPosition_sidereal_mode (lib := Toy.swe) (jvm := Stray.null_reading)
                toy_sid_mode_setter_ok toy_calc_keeps_globals
                2451545%float 0 0%float 0%float (-1) Toy.ready)
      as (s1 & _ & _ & _ & Hkeep & _).
    apply Hkeep. lia.
Defined.

(** On the small library a call for the body -1 with ayanamsha 1 fails,
    and the mode, 0 before, is 1 after. *)
Lemma getPlanetPosition_failure_keeps_new_mode_witness :
  @sid_mode Toy.swe Toy.ready = 0
  /\ getPlanetPositionInternal (lib := Toy.swe) (jvm := Stray.null_reading) 2451545%float (-1) 0%float
         0%float 1 Toy.ready
     = (Returns nullptr,
        {| Toy.path := "/sdcard/ephe"; Toy.mode := 1; Toy.files_open := true |})
  /\ @sid_mode Toy.swe {| Toy.path := "/sdcard/ephe"; Toy.mode := 1;
                           Toy.files_open := false |} = 1
  /\ @sid_mode Toy.swe {| Toy.path := "/sdcard/ephe"; Toy.mode := 1;
                           Toy.files_open := true |} = 1.
Proof.
  split; [reflexivity |].
  apply (getPlanetPosition_failure_keeps_new_mode (lib := Toy.swe) (jvm := Stray.null_reading)
           toy_sid_mode_setter_ok toy_calc_keeps_globals
           2451545%float (-1) 0%float 0%float 1 Toy.ready
           {| Toy.path := "/sdcard/ephe"; Toy.mode := 1;
              Toy.files_open := false |}
           {| Toy.path := "/sdcard/ephe"; Toy.mode := 1;
              Toy.files_open := true |}
           (-1) (Toy.xx_of 2451545%float) "illegal planet number");
    [lia | reflexivity | reflexivity | lia].
Defined.

(** On the small library with no path set the offset calculation throws
    and the answer is 0.0, the answer of a call whose offset is 0.0. *)
Lemma getAyanamsha_fault_is_zero_witness :
  getAyanamshaInternal (lib := Toy.swe) 2451545%float 1 Toy.fresh
    = (Returns 0%float, Toy.fresh)
  /\ fst (getAyanamshaInternal (lib := Toy.swe) 2451545%float 0 Toy.ready)
     = fst (getAyanamshaInternal (lib := Toy.swe) 2451545%float 1 Toy.fresh).
Proof.
  destruct (getAyanamsha_fault_is_zero (lib := Toy.swe) 2451545%float 1
              Toy.fresh Toy.fresh Toy.no_ephemeris eq_refl) as [Hzero Hsame].
  split; [exact Hzero |].
  apply (Hsame 2451545%float 0 Toy.ready Toy.ready). reflexivity.
Defined.

(** On the small library a readable string that names no directory
    gives true, an unreadable one false. *)
Lemma setEphemerisPath_true_unless_unreadable_witness :
  setEphemerisPath (lib := Toy.swe) (env := Toy.jni)
      (Some "/no/such/directory"%string) Toy.fresh
    = (Returns JNI_TRUE,
       {| Toy.path := "/no/such/directory"; Toy.mode := 0;
          Toy.files_open := false |})
  /\ setEphemerisPath (lib := Toy.swe) (env := Toy.jni) None Toy.fresh
     = (Returns JNI_FALSE, Toy.fresh).
Proof.
  split.
  - exact (setEphemerisPath_true_unless_unreadable (lib := Toy.swe)
             (env := Toy.jni) toy_ephe_path_setter_returns
             (Some "/no/such/directory"%string) Toy.fresh).
  - exact (setEphemerisPath_true_unless_unreadable (lib := Toy.swe)
             (env := Toy.jni) toy_ephe_path_setter_returns None Toy.fresh).
Defined.

(** On the small library the hook leaves the default path, closed
    files, and returns 0x10006. *)
Lemma JNI_OnLoad_sets_default_path_then_closes_witness :
  JNI_OnLoad (lib := Toy.swe) 4096 0 Toy.ready
  = (Returns 65542,
     {| Toy.path := "/data/data/com.supernova.skvk_application/files/ephemeris";
        Toy.mode := 0; Toy.files_open := false |}).
Proof.
  destruct (JNI_OnLoad_sets_default_path_then_closes (lib := Toy.swe)
              toy_ephe_path_setter_ok 4096 0 Toy.ready)
    as (s1 & Hs1 & _ & Hrun & _).
  rewrite Hrun. injection Hs1 as <-. reflexivity.
Defined.

(** The house entry points on the small library, under a JVM that takes
    another bit pattern at every place: house system 'P' gives twelve
    stray references and five more, another system [nullptr] from
    both. *)
Example getHouseCusps_toy :
  fst (getHouseCuspsInternal (lib := Toy.swe) (jvm := Stray.garbage_reading)
         2451545%float 48%float 11.5%float 80 Toy.ready)
  = Returns (ArrayList (map (fun i => stray_ref (Z.of_nat i)) (seq 0 12))).
Proof. reflexivity. Qed.

Example getAscendantData_toy :
  fst (getAscendantDataInternal (lib := Toy.swe) (jvm := Stray.garbage_reading)
         2451545%float 48%float 11.5%float 80 Toy.ready)
  = Returns (HashMap (<["equatorialAscendant" := stray_ref 19]>
                       (<["vertex" := stray_ref 6]>
                         (<["armc" := stray_ref 4]>
                           (<["midheaven" := stray_ref 9]>
                             (<["ascendant" := stray_ref 9]> ∅)))))).
Proof. reflexivity. Qed.

Example house_entry_points_unknown_system_toy :
  fst (getHouseCuspsInternal (lib := Toy.swe) (jvm := Stray.null_reading) 2451545%float 48%float
         11.5%float 63 Toy.ready) = Returns nullptr
  /\ fst (getAscendantDataInternal (lib := Toy.swe) (jvm := Stray.null_reading) 2451545%float 48%float
            11.5%float 63 Toy.ready) = Returns nullptr.
Proof. split; reflexivity. Qed.

Example getAyanamsha_toy :
  fst (getAyanamshaInternal (lib := Toy.swe) 2451545%float 0
         {| Toy.path := "/sdcard/ephe"; Toy.mode := 1; Toy.files_open := false |})
  = Returns 24.125%float.
Proof. reflexivity. Qed.

(** ** Further properties of the position call *)

Section PositionFurther.
Context {lib : SwissEph} {jvm : VarArgs}.

(** X4.  A [std::exception] from either primitive of a position call
    ends as [nullptr]: when the mode setter throws, the calculation is
    not run and the state is the one the setter left; when the
    calculation throws, the state is the one it left. *)
Theorem getPlanetPosition_fault_is_absent
    (julianDay : jdouble) (planet : jint) (latitude longitude : jdouble)
    (ayanamsha : jint) (s : swe_data) :
  (forall (e : std_exception) (s1 : swe_data),
     set_ayanamsha_if_specified ayanamsha s = (Throws e, s1) ->
     getPlanetPositionInternal julianDay planet latitude longitude ayanamsha s
       = (Returns nullptr, s1))
  /\ (forall (e : std_exception) (s1 s2 : swe_data),
        set_ayanamsha_if_specified ayanamsha s = (Returns tt, s1) ->
        swe_calc_ut julianDay planet (Z.lor SEFLG_SIDEREAL SEFLG_SPEED) s1
          = (Throws e, s2) ->
        getPlanetPositionInternal julianDay planet latitude longitude
          ayanamsha s = (Returns nullptr, s2)).
Proof.
  split.
  - intros e s1 Hsid. now rewrite getPlanetPosition_run, Hsid.
  - intros e s1 s2 Hsid Hcalc. now rewrite getPlanetPosition_run, Hsid, Hcalc.
Qed.

(** X5.  Whatever the library does, a position call returns [nullptr]
    or a map with exactly the four keys: never a map with fewer. *)
Theorem getPlanetPosition_four_keys_or_absent
    (julianDay : jdouble) (planet : jint) (latitude longitude : jdouble)
    (ayanamsha : jint) (s : swe_data) :
  fst (getPlanetPositionInternal julianDay planet latitude longitude
         ayanamsha s) = Returns nullptr
  \/ exists entries : gmap string jref,
       fst (getPlanetPositionInternal julianDay planet latitude longitude
              ayanamsha s) = Returns (HashMap entries)
       /\ dom entries
          = ({[ "longitude"; "latitude"; "distance"; "speed" ]} : gset string).
Proof.
  rewrite getPlanetPosition_run.
  destruct (set_ayanamsha_if_specified ayanamsha s) as [[[] | e] s1];
    [| left; reflexivity].
  destruct (swe_calc_ut _ _ _ s1) as [[[[result xx] serr] | e] s2];
    [| left; reflexivity].
  destruct (result <? 0); [left; reflexivity |].
  right. eexists. split; [reflexivity | solve_dom].
Qed.

(** Under the two hypotheses on the library, a position call with a
    non-negative [ayanamsha] leaves that mode. *)
Lemma getPlanetPosition_leaves_mode
    (Hset : sid_mode_setter_ok lib) (Hcalc : calc_keeps_globals lib)
    (julianDay : jdouble) (planet : jint) (latitude longitude : jdouble)
    (ayanamsha : jint) (s : swe_data) :
  0 <= ayanamsha ->
  sid_mode (snd (getPlanetPositionInternal julianDay planet latitude longitude
                   ayanamsha s)) = ayanamsha.
Proof.
  intros Hge.
  destruct (Hset ayanamsha 0%float 0%float s) as (s1 & Hs1 & Hmode & _).
  rewrite <- (set_ayanamsha_specified _ _ Hge) in Hs1.
  rewrite (getPlanetPosition_final_state _ _ _ _ _ _ _ Hs1).
  destruct (Hcalc julianDay planet (Z.lor SEFLG_SIDEREAL SEFLG_SPEED) s1)
    as [_ Hm].
  congruence.
Qed.

(** X9.  For a library whose mode setter stores the mode and whose
    position calculation leaves the two globals alone: after a position
    call with a non-negative [ayanamsha], a second position call with a
    negative one does not touch the mode; its calculation runs in the
    mode of the first call, and that mode is still there afterwards. *)
Theorem sidereal_mode_outlives_call
    (Hset : sid_mode_setter_ok lib) (Hcalc : calc_keeps_globals lib)
    (julianDay julianDay' : jdouble) (planet planet' : jint)
    (latitude longitude latitude' longitude' : jdouble)
    (ayanamsha ayanamsha' : jint) (s : swe_data) :
  0 <= ayanamsha -> ayanamsha' < 0 ->
  exists s' : swe_data,
    s' = snd (getPlanetPositionInternal julianDay planet latitude longitude
                ayanamsha s)
    /\ sid_mode s' = ayanamsha
    /\ set_ayanamsha_if_specified ayanamsha' s' = (Returns tt, s')
    /\ snd (getPlanetPositionInternal julianDay' planet' latitude' longitude'
              ayanamsha' s')
       = snd (swe_calc_ut julianDay' planet'
                (Z.lor SEFLG_SIDEREAL SEFLG_SPEED) s')
    /\ sid_mode (snd (getPlanetPositionInternal julianDay' planet' latitude'
                        longitude' ayanamsha' s')) = ayanamsha.
Proof.
  intros Hge Hlt. eexists. split; [reflexivity |].
  set (s' := snd (getPlanetPositionInternal julianDay planet latitude
                    longitude ayanamsha s)).
  assert (Hmode : sid_mode s' = ayanamsha)
    by (apply getPlanetPosition_leaves_mode; assumption).
  assert (Hs' := set_ayanamsha_unspecified ayanamsha' s' Hlt).
  split; [exact Hmode |]. split; [exact Hs' |].
  rewrite (getPlanetPosition_final_state _ _ _ _ _ _ _ Hs').
  split; [reflexivity |].
  destruct (Hcalc julianDay' planet' (Z.lor SEFLG_SIDEREAL SEFLG_SPEED) s')
    as [_ Hm].
  congruence.
Qed.

End PositionFurther.

(** ** Further properties of the ayanamsha and house calls *)

Section HousesFurther.
Context {lib : SwissEph} {jvm : VarArgs}.

(** X10.  For a library whose mode setter stores the mode and whose
    position calculation leaves the two globals alone: an ayanamsha call
    made after a position call with a non-negative [ayanamsha] has its
    offset computed in that mode, whatever [ayanamshaType] it is
    given. *)
Theorem ayanamsha_runs_in_mode_of_position_call
    (Hset : sid_mode_setter_ok lib) (Hcalc : calc_keeps_globals lib)
    (julianDay julianDay' : jdouble) (planet : jint)
    (latitude longitude : jdouble) (ayanamsha ayanamshaType : jint)
    (s : swe_data) :
  0 <= ayanamsha ->
  exists s' : swe_data,
    s' = snd (getPlanetPositionInternal julianDay planet latitude longitude
                ayanamsha s)
    /\ sid_mode s' = ayanamsha
    /\ getAyanamshaInternal julianDay' ayanamshaType s'
       = match swe_get_ayanamsa_ut julianDay' s' with
         | (Returns ayanamshaValue, s'') => (Returns ayanamshaValue, s'')
         | (Throws e, s'') => (Returns 0%float, s'')
         end.
Proof.
  intros Hge. eexists. split; [reflexivity |].
  split; [apply getPlanetPosition_leaves_mode; assumption |].
  apply getAyanamsha_run.
Qed.

(** X6.  Whatever the library does, an ascendant call returns [nullptr]
    or a map with exactly the five keys: never a map with fewer. *)
Theorem getAscendantData_five_keys_or_absent
    (julianDay latitude longitude : jdouble) (houseSystem : jint)
    (s : swe_data) :
  fst (getAscendantDataInternal julianDay latitude longitude houseSystem s)
    = Returns nullptr
  \/ exists entries : gmap string jref,
       fst (getAscendantDataInternal julianDay latitude longitude
              houseSystem s) = Returns (HashMap entries)
       /\ dom entries
          = ({[ "ascendant"; "midheaven"; "armc"; "vertex";
                "equatorialAscendant" ]} : gset string).
Proof.
  rewrite getAscendantData_run.
  destruct (swe_houses _ _ _ _ s) as [[[[result cusps] ascmc] | e] s'];
    [| left; reflexivity].
  destruct (result <? 0); [left; reflexivity |].
  right. eexists. split; [reflexivity | solve_dom].
Qed.

End HousesFurther.

(** ** Further properties of the path calls *)

Section PathFurther.
Context {lib : SwissEph} {env : JNIEnv}.

(** X2.  [JNI_OnLoad] has no handler: when [swe_set_ephe_path] throws,
    the hook throws the same exception, [swe_close] is not run and the
    state is the one the setter left. *)
Theorem JNI_OnLoad_propagates_setter_fault
    (vm reserved : Z) (s s1 : swe_data) (e : std_exception) :
  swe_set_ephe_path default_ephemeris_path s = (Throws e, s1) ->
  JNI_OnLoad vm reserved s = (Throws e, s1).
Proof.
  intros Hset. unfold JNI_OnLoad. now rewrite (bind_throws _ _ _ _ _ Hset).
Qed.

(** For a library whose path setter stores the path, a readable string
    leaves its characters as the path. *)
Lemma setEphemerisPath_stores (Hset : ephe_path_setter_ok lib)
    (path : jstring) (pathStr : string) (s : swe_data) :
  GetStringUTFChars path = Some pathStr ->
  fst (setEphemerisPath path s) = Returns JNI_TRUE
  /\ ephe_path (snd (setEphemerisPath path s)) = pathStr.
Proof.
  intros Hchars. unfold setEphemerisPath, try_catch. rewrite Hchars.
  destruct (Hset pathStr s) as (s' & Hs' & Hpath).
  now rewrite (bind_returns _ _ _ _ _ Hs').
Qed.

(** X12.  For a library whose path setter stores the path: of two
    [setEphemerisPath] calls in a row the second decides the path when
    its string can be read; when it cannot, the second call answers
    false and the path of the first call stays. *)
Theorem setEphemerisPath_twice
    (Hset : ephe_path_setter_ok lib) (path1 path2 : jstring)
    (pathStr1 : string) (s : swe_data) :
  GetStringUTFChars path1 = Some pathStr1 ->
  match GetStringUTFChars path2 with
  | Some pathStr2 =>
      fst (setEphemerisPath path2 (snd (setEphemerisPath path1 s)))
        = Returns JNI_TRUE
      /\ ephe_path (snd (setEphemerisPath path2
                           (snd (setEphemerisPath path1 s)))) = pathStr2
  | None =>
      fst (setEphemerisPath path2 (snd (setEphemerisPath path1 s)))
        = Returns JNI_FALSE
      /\ ephe_path (snd (setEphemerisPath path2
                           (snd (setEphemerisPath path1 s)))) = pathStr1
  end.
Proof.
  intros Hchars1.
  destruct (setEphemerisPath_stores Hset path1 pathStr1 s Hchars1)
    as [_ Hpath1].
  destruct (GetStringUTFChars path2) as [pathStr2 |] eqn:Hchars2.
  - apply (setEphemerisPath_stores Hset); exact Hchars2.
  - unfold setEphemerisPath at 1 3. unfold try_catch. rewrite Hchars2.
    simpl. split; [reflexivity | exact Hpath1].
Qed.

End PathFurther.

(** ** The further properties on the two small libraries *)

(** On the library that throws, the hook throws and a path call answers
    false. *)
Lemma JNI_OnLoad_propagates_setter_fault_witness :
  JNI_OnLoad (lib := Faulty.swe) 4096 0 Toy.fresh
  = (Throws Faulty.fault, Toy.fresh).
Proof.
  exact (JNI_OnLoad_propagates_setter_fault (lib := Faulty.swe) 4096 0
           Toy.fresh Toy.fresh Faulty.fault eq_refl).
Defined.

Lemma setEphemerisPath_fault_witness :
  setEphemerisPath (lib := Faulty.swe) (env := Toy.jni)
      (Some "/sdcard/ephe"%string) Toy.fresh
  = (Returns JNI_FALSE, Toy.fresh).
Proof.
  exact (setEphemerisPath_fault (lib := Faulty.swe) (env := Toy.jni)
           (Some "/sdcard/ephe"%string) "/sdcard/ephe" Toy.fresh Toy.fresh
           Faulty.fault eq_refl eq_refl).
Defined.

(** The setter throws on the library that throws; on the small library
    with no path set the setter returns and the calculation throws. *)
Lemma getPlanetPosition_fault_is_absent_witness :
  getPlanetPositionInternal (lib := Faulty.swe) (jvm := Stray.null_reading) 2451545%float 0 0%float
      0%float 1 Toy.ready
    = (Returns nullptr, Toy.ready)
  /\ getPlanetPositionInternal (lib := Toy.swe) (jvm := Stray.null_reading) 2451545%float 0 0%float
         0%float 1 Toy.fresh
     = (Returns nullptr,
        {| Toy.path := ""; Toy.mode := 1; Toy.files_open := false |}).
Proof.
  split.
  - exact (proj1 (getPlanetPosition_fault_is_absent (lib := Faulty.swe) (jvm := Stray.null_reading)
                    2451545%float 0 0%float 0%float 1 Toy.ready)
             Faulty.fault Toy.ready eq_refl).
  - exact (proj2 (getPlanetPosition_fault_is_absent (lib := Toy.swe) (jvm := Stray.null_reading)
                    2451545%float 0 0%float 0%float 1 Toy.fresh)
             Toy.no_ephemeris
             {| Toy.path := ""; Toy.mode := 1; Toy.files_open := false |}
             {| Toy.path := ""; Toy.mode := 1; Toy.files_open := false |}
             eq_refl eq_refl).
Defined.

(** Mode 1 of a first call is the mode after a second call with
    ayanamsha -1. *)
Lemma sidereal_mode_outlives_call_witness :
  sid_mode
    (snd (getPlanetPositionInternal (lib := Toy.swe) (jvm := Stray.null_reading) 2451546%float 3 0%float
            0%float (-1)
            (snd (getPlanetPositionInternal (lib := Toy.swe) (jvm := Stray.null_reading) 2451545%float 0
                    0%float 0%float 1 Toy.ready)))) = 1.
Proof.
  destruct (sidereal_mode_outlives_call (lib := Toy.swe) (jvm := Stray.null_reading)
              toy_sid_mode_setter_ok toy_calc_keeps_globals
              2451545%float 2451546%float 0 3 0%float 0%float 0%float 0%float
              1 (-1) Toy.ready ltac:(lia) ltac:(lia))
    as (s' & -> & _ & _ & _ & Hmode).
  exact Hmode.
Defined.

(** After a position call with ayanamsha 1, an ayanamsha call given type
    0 returns the offset of mode 1. *)
Lemma ayanamsha_runs_in_mode_of_position_call_witness :
  fst (getAyanamshaInternal (lib := Toy.swe) 2451545%float 0
         (snd (getPlanetPositionInternal (lib := Toy.swe) (jvm := Stray.null_reading) 2451545%float 0
                 0%float 0%float 1 Toy.ready)))
  = Returns 24.125%float.
Proof.
  destruct (ayanamsha_runs_in_mode_of_position_call (lib := Toy.swe) (jvm := Stray.null_reading)
              toy_sid_mode_setter_ok toy_calc_keeps_globals
              2451545%float 2451545%float 0 0%float 0%float 1 0 Toy.ready
              ltac:(lia))
    as (s' & -> & _ & Hrun).
  rewrite Hrun. reflexivity.
Defined.

(** On the small library: a second readable string replaces the path of
    the first, an unreadable one leaves it. *)
Lemma setEphemerisPath_twice_witness :
  ephe_path
    (snd (setEphemerisPath (lib := Toy.swe) (env := Toy.jni)
            (Some "/second"%string)
            (snd (setEphemerisPath (lib := Toy.swe) (env := Toy.jni)
                    (Some "/first"%string) Toy.fresh)))) = "/second"%string
  /\ ephe_path
       (snd (setEphemerisPath (lib := Toy.swe) (env := Toy.jni) None
               (snd (setEphemerisPath (lib := Toy.swe) (env := Toy.jni)
                       (Some "/first"%string) Toy.fresh))))
     = "/first"%string.
Proof.
  split.
  - exact (proj2 (setEphemerisPath_twice (lib := Toy.swe) (env := Toy.jni)
                    toy_ephe_path_setter_ok (Some "/first"%string)
                    (Some "/second"%string) "/first" Toy.fresh eq_refl)).
  - exact (proj2 (setEphemerisPath_twice (lib := Toy.swe) (env := Toy.jni)
                    toy_ephe_path_setter_ok (Some "/first"%string) None
                    "/first" Toy.fresh eq_refl)).
Defined.
